(** * Hospital Consignment Optimizer (src/app.py): shallow embedding

    The Streamlit script is a straight-line batch transform over one
    pandas DataFrame.  We embed it as follows.
    - Timestamps (pandas [datetime64], Python [datetime]) are integers of
      microseconds, the resolution of [datetime.today()]; NaT is [None].
    - Numeric cells that may be NaN are [option Z]; [None] is NaN.
    - Float division in the activity quotient is exact division in [Q].
    - The UI widgets (file upload, multiselect filters) become arguments;
      the wall-clock read [datetime.today()] is an effect of a small
      program type [Prog] (see [app]). *)

From Stdlib Require Import String List ZArith QArith Bool Lia Permutation.
Import ListNotations.
Open Scope Z_scope.
Open Scope string_scope.

(** ** Data model *)

(** One DataFrame row after the three [pd.to_datetime(..., errors="coerce")]
    conversions (lines 56-58). *)
Record Row := mkRow {
  Record_Type : string;
  Hospital_ID : string;
  Hospital_Name : string;
  Product_ID : string;
  Product_Name : string;
  Product_Category : string;
  Usage_Family : string;
  Movement_Date : option Z;
  Movement_Qty : option Z;
  Current_Stock : option Z;
  Expiry_Date : option Z;
  Consignment_Start_Date : option Z
}.

(** One day as a [timedelta], in microseconds. *)
Definition day : Z := 86400000000.

(** ** Validation (lines 45-53) *)

Definition required_cols : list string :=
  ["Record_Type"; "Hospital_ID"; "Hospital_Name"; "Product_ID"; "Product_Name";
   "Product_Category"; "Usage_Family"; "Movement_Date"; "Movement_Qty";
   "Current_Stock"; "Expiry_Date"; "Consignment_Start_Date"].

Definition col_in (cols : list string) (c : string) : bool :=
  existsb (String.eqb c) cols.

(** [if not all(col in df.columns for col in required_cols)]:
    [st.error(f"... missing required columns: {required_cols}")] then
    [st.stop()].  The error carries the list that the message prints. *)
Definition validate (cols : list string) : option (list string) :=
  if negb (forallb (col_in cols) required_cols) then Some required_cols
  else None.

(** ** Split and filters (lines 61-89) *)

Definition mov_of (df : list Row) : list Row :=
  filter (fun r => String.eqb (Record_Type r) "movement") df.

Definition inv_of (df : list Row) : list Row :=
  filter (fun r => String.eqb (Record_Type r) "inventory") df.

(** [x.isin(sel)] *)
Definition isin (x : string) (sel : list string) : bool :=
  existsb (String.eqb x) sel.

(** [if sel: frame = frame[frame[col].isin(sel)]]: an empty multiselect
    does not filter. *)
Definition filter_on (col : Row -> string) (sel : list string)
    (frame : list Row) : list Row :=
  match sel with
  | [] => frame
  | _ => filter (fun r => isin (col r) sel) frame
  end.

Definition apply_filters (hospital_filter category_filter product_filter : list string)
    (frame : list Row) : list Row :=
  filter_on Product_Name product_filter
    (filter_on Product_Category category_filter
      (filter_on Hospital_Name hospital_filter frame)).

(** ** Time-windowed aggregation (lines 92-132) *)

(** [frame[frame["Movement_Date"] >= since]]; NaT compares False. *)
Definition date_ge (since : Z) (r : Row) : bool :=
  match Movement_Date r with
  | Some d => Z.leb since d
  | None => false
  end.

Definition window (since : Z) (frame : list Row) : list Row :=
  filter (date_ge since) frame.

(** Group key of every [groupby] and [merge]: [["Hospital_Name","Product_Name"]]. *)
Definition key (r : Row) : string * string := (Hospital_Name r, Product_Name r).

Definition key_eqb (k1 k2 : string * string) : bool :=
  String.eqb (fst k1) (fst k2) && String.eqb (snd k1) (snd k2).

Definition group (k : string * string) (frame : list Row) : list Row :=
  filter (fun r => key_eqb (key r) k) frame.

(** [Series.sum()] skips NaN (sum of none is 0). *)
Definition nansum (xs : list (option Z)) : Z :=
  fold_right (fun x acc => match x with Some v => v + acc | None => acc end) 0%Z xs.

(** [Series.count()]: number of non-NaN values. *)
Definition nancount (xs : list (option Z)) : Z :=
  Z.of_nat (length (filter (fun x => match x with Some _ => true | None => false end) xs)).

(** [Series.max()] / [Series.min()] skip NaN; NaN when nothing is left. *)
Definition nanopt (f : Z -> Z -> Z) (xs : list (option Z)) : option Z :=
  fold_right (fun x acc =>
    match x, acc with
    | Some v, Some a => Some (f v a)
    | Some v, None => Some v
    | None, _ => acc
    end) None xs.

Definition nanmax := nanopt Z.max.
Definition nanmin := nanopt Z.min.

(** Per-key aggregates after the three left merges and the [fillna(0)]
    of lines 143-145: [consumption_6m], [start_dates] and [stats].  A key
    with no group is NaN after the merge; [fillna(0)] turns the count,
    the maximum and the 6-month sum into 0, but not [Start_Date] and
    [Days_Active]. *)
Record Stats := mkStats {
  Consumption_6M : Z;
  Start_Date : option Z;
  Days_Active : option Z;
  Number_of_Consumptions : Z;
  Max_Consumption : Z
}.

Definition fillna0 (x : option Z) : Z :=
  match x with Some v => v | None => 0%Z end.

Definition stats_of (today : Z) (filtered_mov : list Row) (k : string * string) : Stats :=
  let mov_6m := window (today - 180 * day) filtered_mov in
  let mov_18m := window (today - 540 * day) filtered_mov in
  let g6 := group k mov_6m in
  let g18 := group k mov_18m in
  let start := nanmin (map Movement_Date g18) in
  {| Consumption_6M := nansum (map Movement_Qty g6);
     Start_Date := start;
     (* (today - start_dates["Start_Date"]).dt.days: floor of whole days *)
     Days_Active := option_map (fun s => Z.div (today - s) day) start;
     Number_of_Consumptions := nancount (map Movement_Qty g18);
     Max_Consumption := fillna0 (nanmax (map Movement_Qty g18)) |}.

(** ** Activity quotient and classification (lines 147-164) *)

(** [Days_Active / Number_of_Consumptions if Number_of_Consumptions > 0
    else 999]; [None] is NaN. *)
Definition Activity_Quotient (s : Stats) : option Q :=
  if Z.ltb 0 (Number_of_Consumptions s) then
    option_map (fun d => (inject_Z d / inject_Z (Number_of_Consumptions s))%Q) (Days_Active s)
  else Some (inject_Z 999).

Inductive Class := A | B | C | D.

(** [classify(q)]; a NaN quotient fails every [<=] and falls to "D". *)
Definition classify (q : option Q) : Class :=
  match q with
  | None => D
  | Some q =>
      if Qle_bool q (inject_Z 10) then A
      else if Qle_bool q (inject_Z 20) then B
      else if Qle_bool q (inject_Z 40) then C
      else D
  end.

(** [safety_map = {"A":3,"B":2,"C":1,"D":0}] *)
Definition safety_map (c : Class) : Z :=
  match c with A => 3 | B => 2 | C => 1 | D => 0 end%Z.

(** Line 169. *)
Definition Recommended (max_consumption : Z) (c : Class) : Z :=
  max_consumption + safety_map c.

(** ** Expiry flags (lines 174-183) *)

Definition expiry_flag (today : Z) (date : option Z) : string :=
  match date with
  | None => "🟩 OK"
  | Some d =>
      if Z.ltb d today then "🟥 EXPIRED"
      else if Z.leb d (today + 30 * day) then "🟧 Expiring Soon"
      else "🟩 OK"
  end.

(** ** Actions (lines 235-241) *)

(** The [apply] of lines 235-239; comparisons with NaN are False. *)
Definition action_of_difference (diff : option Z) : string :=
  match diff with
  | Some d => if Z.ltb 0 d then "Reduce" else if Z.ltb d 0 then "Increase" else "OK"
  | None => "OK"
  end.

(** Line 241: [model_df.loc[Expiry_Status == "🟥 EXPIRED", "Action"] = ...]. *)
Definition Action (status : string) (diff : option Z) : string :=
  if String.eqb status "🟥 EXPIRED" then "REMOVE – Expired"
  else action_of_difference diff.

(** ** One row of [model_df] *)

Record OutRow := mkOut {
  inv_row : Row;                     (* the columns of [filtered_inv] *)
  o_stats : Stats;
  o_AvgWeekly : Q;
  o_Activity_Quotient : option Q;
  o_Class : Class;
  o_SafetyStock : Z;
  o_Recommended : Z;
  o_Expiry_Status : string;
  o_Difference : option Z;
  o_Action : string
}.

Definition model_row (today : Z) (filtered_mov : list Row) (r : Row) : OutRow :=
  let s := stats_of today filtered_mov (key r) in
  let q := Activity_Quotient s in
  let c := classify q in
  let rec := Recommended (Max_Consumption s) c in
  let status := expiry_flag today (Expiry_Date r) in
  let diff := option_map (fun cs => cs - rec)%Z (Current_Stock r) in
  {| inv_row := r;
     o_stats := s;
     o_AvgWeekly := (inject_Z (Consumption_6M s) / inject_Z 26)%Q;
     o_Activity_Quotient := q;
     o_Class := c;
     o_SafetyStock := safety_map c;
     o_Recommended := rec;
     o_Expiry_Status := status;
     o_Difference := diff;
     o_Action := Action status diff |}.

(** Lines 60-241 for a validated frame: [model_df] starts as
    [filtered_inv.copy()] and each left merge on the unique keys of the
    grouped tables keeps its rows in order. *)
Definition pipeline (df : list Row) (hospital_filter category_filter product_filter : list string)
    (today : Z) : list OutRow :=
  let filtered_mov := apply_filters hospital_filter category_filter product_filter (mov_of df) in
  let filtered_inv := apply_filters hospital_filter category_filter product_filter (inv_of df) in
  map (model_row today filtered_mov) filtered_inv.

(** ** The script as a program reading the wall clock *)

(** Line 92 reads [datetime.today()]; the script has no as-of parameter. *)
Inductive Prog (R : Type) : Type :=
| Ret (r : R)
| ReadClock (k : Z -> Prog R).
Arguments Ret {R} r.
Arguments ReadClock {R} k.

(** Run against a wall clock that shows [now]. *)
Fixpoint run_prog {R} (now : Z) (p : Prog R) : R :=
  match p with
  | Ret r => r
  | ReadClock k => run_prog now (k now)
  end.

(** Number of clock reads made by a run against a clock showing [now]. *)
Fixpoint clock_reads {R} (now : Z) (p : Prog R) : nat :=
  match p with
  | Ret _ => 0
  | ReadClock k => S (clock_reads now (k now))
  end.

Inductive Result :=
| Halted (missing_msg_cols : list string)   (* st.error(...); st.stop() *)
| Table (model_df : list OutRow).

(** The whole script for a loaded frame with columns [cols] and rows [df],
    under the three filter selections. *)
Definition app (cols : list string) (df : list Row)
    (hospital_filter category_filter product_filter : list string) : Prog Result :=
  match validate cols with
  | Some shown => Ret (Halted shown)
  | None =>
      ReadClock (fun today =>
        Ret (Table (pipeline df hospital_filter category_filter product_filter today)))
  end.

(** ** Concrete inputs *)

Definition demo_today : Z := 1000 * day.

Definition inv (h p : string) (stock : option Z) (exp : option Z) : Row :=
  mkRow "inventory" "1" h "10" p "Kits" "high" None None stock exp None.

Definition mv (h p : string) (date : option Z) (qty : option Z) : Row :=
  mkRow "movement" "1" h "10" p "Kits" "high" date qty None None None.

(** P1 expired; P2 expiring in 15 days with surplus stock; P3 one negative
    movement 100 days ago; P4 no movement and expired; P5 only moved. *)
Definition demo_df : list Row :=
  [ inv "H1" "P1" (Some 10) (Some (demo_today - day));
    inv "H1" "P2" (Some 10) (Some (demo_today + 15 * day));
    mv "H1" "P3" (Some (demo_today - 100 * day)) (Some (-10));
    inv "H1" "P3" (Some 0) None;
    inv "H1" "P4" (Some 0) (Some (demo_today - day));
    mv "H1" "P5" (Some (demo_today - 3 * day)) (Some 4) ].

Definition demo_out : list OutRow := pipeline demo_df [] [] [] demo_today.

Definition dummy_row : Row := inv "" "" None None.
Definition row_at (n : nat) : OutRow := nth n demo_out (model_row demo_today [] dummy_row).

(** ** General lemmas *)

Lemma filter_filter {X} (p q : X -> bool) (l : list X) :
  filter p (filter q l) = filter (fun x => q x && p x) l.
Proof.
  induction l as [|x l IH]; simpl; [reflexivity|].
  destruct (q x); simpl; [destruct (p x); simpl|]; rewrite IH; reflexivity.
Qed.

Lemma filter_on_incl (col : Row -> string) sel l r :
  In r (filter_on col sel l) -> In r l.
Proof.
  destruct sel; simpl; [auto|]. intros H; apply filter_In in H; tauto.
Qed.

Lemma apply_filters_incl hf cf pf l r :
  In r (apply_filters hf cf pf l) -> In r l.
Proof.
  unfold apply_filters; intros H.
  apply filter_on_incl, filter_on_incl, filter_on_incl in H; exact H.
Qed.

Lemma in_pipeline df hf cf pf t o :
  In o (pipeline df hf cf pf t) ->
  exists r, o = model_row t (apply_filters hf cf pf (mov_of df)) r /\
            In r (apply_filters hf cf pf (inv_of df)).
Proof.
  unfold pipeline; intros H; apply in_map_iff in H.
  destruct H as [r [Hr Hin]]; exists r; auto.
Qed.

Lemma safety_map_nonneg c : 0 <= safety_map c.
Proof. destruct c; simpl; lia. Qed.

(** ** C1: the expired override *)

(** C1 (as stated fails): an expired row's action is not the string
    "Remove – Expired"; line 241 writes "REMOVE – Expired". *)
Lemma C1_counterexample :
  o_Expiry_Status (row_at 0) = "🟥 EXPIRED" /\
  o_Difference (row_at 0) = Some 10 /\
  o_Action (row_at 0) <> "Remove – Expired".
Proof. vm_compute. split; [reflexivity | split; [reflexivity | discriminate]]. Qed.

(** C1 (amended): for every output row whose expiry status is EXPIRED, the
    action is "REMOVE – Expired", whatever the Difference. *)
Theorem C1_expired_overrides df hf cf pf today :
  Forall (fun o => o_Expiry_Status o = "🟥 EXPIRED" -> o_Action o = "REMOVE – Expired")
    (pipeline df hf cf pf today).
Proof.
  apply Forall_forall; intros o Hin.
  destruct (in_pipeline _ _ _ _ _ _ Hin) as [r [-> _]].
  unfold model_row; simpl; intros Hs.
  unfold Action; rewrite Hs; reflexivity.
Qed.

(** ** C4: surplus stock that expires soon *)

(** C4 (as stated fails): an "Expiring Soon" row with positive Difference
    gets "Reduce", with no "(Expiring Soon)" suffix. *)
Lemma C4_counterexample :
  o_Expiry_Status (row_at 1) = "🟧 Expiring Soon" /\
  o_Difference (row_at 1) = Some 10 /\
  o_Action (row_at 1) <> "Reduce (Expiring Soon)".
Proof. vm_compute. split; [reflexivity | split; [reflexivity | discriminate]]. Qed.

(** C4 (amended): every output row whose expiry status is "Expiring Soon"
    and whose Difference is strictly positive gets the action "Reduce". *)
Theorem C4_expiring_soon_reduce df hf cf pf today :
  Forall (fun o => o_Expiry_Status o = "🟧 Expiring Soon" ->
                   forall d, o_Difference o = Some d -> 0 < d ->
                   o_Action o = "Reduce")
    (pipeline df hf cf pf today).
Proof.
  apply Forall_forall; intros o Hin.
  destruct (in_pipeline _ _ _ _ _ _ Hin) as [r [-> _]].
  unfold model_row; simpl; intros Hs d Hd Hpos.
  unfold Action; rewrite Hs, Hd; simpl.
  destruct (Z.ltb_spec 0 d); [reflexivity | lia].
Qed.

(** ** C5: sign of the recommended stock *)

(** C5 (as stated fails): one movement of quantity -10, 100 days before the
    as-of instant, gives class D and Recommended = -10. *)
Lemma C5_counterexample :
  o_Class (row_at 2) = D /\ o_Recommended (row_at 2) = -10 /\ o_Recommended (row_at 2) < 0.
Proof. vm_compute. split; [reflexivity | split; [reflexivity | reflexivity]]. Qed.

Lemma nanmax_nonneg xs :
  (forall x, In (Some x) xs -> 0 <= x) -> 0 <= fillna0 (nanmax xs).
Proof.
  unfold nanmax; induction xs as [|a xs IH]; simpl; intros H; [lia|].
  assert (IH' : 0 <= fillna0 (nanopt Z.max xs)) by (apply IH; auto).
  destruct a as [v|]; destruct (nanopt Z.max xs) as [m|]; simpl in *; try lia;
    specialize (H v (or_introl eq_refl)); lia.
Qed.

Lemma in_group_window k s l r : In r (group k (window s l)) -> In r l.
Proof.
  unfold group, window; intros H.
  apply filter_In in H; destruct H as [H _]; apply filter_In in H; tauto.
Qed.

(** C5 (amended): when no movement row carries a negative quantity (NaN
    quantities allowed), the Recommended stock of every output row is
    non-negative. *)
Theorem C5_recommended_nonneg df hf cf pf today
  (Hqty : Forall (fun r => forall q, Movement_Qty r = Some q -> 0 <= q) (mov_of df)) :
  Forall (fun o => 0 <= o_Recommended o) (pipeline df hf cf pf today).
Proof.
  apply Forall_forall; intros o Hin.
  destruct (in_pipeline _ _ _ _ _ _ Hin) as [r [-> _]].
  unfold model_row, stats_of, Recommended; cbn [o_Recommended Max_Consumption].
  pose proof (safety_map_nonneg
    (classify (Activity_Quotient (stats_of today (apply_filters hf cf pf (mov_of df)) (key r))))).
  assert (0 <= fillna0 (nanmax (map Movement_Qty
            (group (key r) (window (today - 540 * day) (apply_filters hf cf pf (mov_of df))))))).
  { apply nanmax_nonneg; intros x Hx.
    apply in_map_iff in Hx; destruct Hx as [m [Hm Hmin]].
    apply in_group_window, apply_filters_incl in Hmin.
    rewrite Forall_forall in Hqty; exact (Hqty m Hmin x Hm). }
  unfold stats_of in *; lia.
Qed.

(** A frame whose only movement quantities are non-negative. *)
Definition pos_df : list Row :=
  [ mv "H1" "P5" (Some (demo_today - 3 * day)) (Some 4);
    inv "H1" "P5" (Some 1) None ].

Lemma C5_witness :
  Forall (fun r => forall q, Movement_Qty r = Some q -> 0 <= q) (mov_of pos_df) /\
  Forall (fun o => 0 <= o_Recommended o) (pipeline pos_df [] [] [] demo_today).
Proof.
  assert (H : Forall (fun r => forall q, Movement_Qty r = Some q -> 0 <= q) (mov_of pos_df)).
  { vm_compute. constructor; [intros q Hq; injection Hq as <-; discriminate | constructor]. }
  split; [exact H | apply (C5_recommended_nonneg pos_df [] [] [] demo_today H)].
Defined.

(** ** C7: monotonicity in the maximum movement *)

(** C7: with the class (hence SafetyStock) fixed, a larger
    MaxMovementQty never gives a smaller Recommended (line 169). *)
Theorem C7_recommended_monotone (m1 m2 : Z) (c : Class) (Hle : m1 <= m2) :
  Recommended m1 c <= Recommended m2 c.
Proof. unfold Recommended; lia. Qed.

Lemma C7_witness : 2 <= 7 /\ Recommended 2 B <= Recommended 7 B.
Proof. split; [lia | apply (C7_recommended_monotone 2 7 B); lia]. Defined.

(** ** C8: the output rows are the filtered inventory rows *)

(** C8: [model_df] has exactly the filtered inventory rows, in order; a
    (hospital, product) key with no inventory row in the frame has no
    output row. *)
Theorem C8_rows_are_inventory_rows df hf cf pf today :
  map inv_row (pipeline df hf cf pf today) = apply_filters hf cf pf (inv_of df) /\
  (forall k, (forall r, In r df -> Record_Type r = "inventory" -> key r <> k) ->
   Forall (fun o => key (inv_row o) <> k) (pipeline df hf cf pf today)).
Proof.
  split.
  - unfold pipeline; rewrite map_map; simpl; apply map_id.
  - intros k Hk; apply Forall_forall; intros o Hin.
    destruct (in_pipeline _ _ _ _ _ _ Hin) as [r [-> Hr]]; simpl.
    apply apply_filters_incl in Hr; unfold inv_of in Hr; apply filter_In in Hr.
    destruct Hr as [Hr Ht]; apply String.eqb_eq in Ht; exact (Hk r Hr Ht).
Qed.

(** ** C6: keys without movements in the 540-day window *)

Lemma date_ge_mono s1 s2 r : s2 <= s1 -> date_ge s1 r = true -> date_ge s2 r = true.
Proof.
  unfold date_ge; destruct (Movement_Date r) as [d|]; [|discriminate].
  intros Hs H; apply Z.leb_le in H; apply Z.leb_le; lia.
Qed.

Lemma group_window_empty k s1 s2 l :
  s2 <= s1 -> group k (window s2 l) = [] -> group k (window s1 l) = [].
Proof.
  unfold group, window; rewrite !filter_filter; intros Hs.
  induction l as [|r l IH]; simpl; [reflexivity|].
  destruct (date_ge s1 r) eqn:E1; simpl.
  - rewrite (date_ge_mono s1 s2 r Hs E1); simpl.
    destruct (key_eqb (key r) k); [discriminate | exact IH].
  - destruct (date_ge s2 r && key_eqb (key r) k); [discriminate | exact IH].
Qed.

(** C6 (as stated fails): a key with no movement and Current_Stock 0 whose
    snapshot has expired gets "REMOVE – Expired", not OK. *)
Lemma C6_counterexample :
  group (key (inv_row (row_at 3)))
    (window (demo_today - 540 * day) (apply_filters [] [] [] (mov_of demo_df))) = [] /\
  Current_Stock (inv_row (row_at 3)) = Some 0 /\
  o_Class (row_at 3) = D /\ o_Recommended (row_at 3) = 0 /\
  o_Action (row_at 3) <> "OK".
Proof.
  vm_compute. repeat split; try reflexivity. discriminate.
Qed.

(** The fields of an output row whose key has no movement in the window. *)
Definition no_movement_row (today : Z) (o : OutRow) : Prop :=
  Consumption_6M (o_stats o) = 0 /\ Number_of_Consumptions (o_stats o) = 0 /\
  Max_Consumption (o_stats o) = 0 /\ Start_Date (o_stats o) = None /\
  Days_Active (o_stats o) = None /\ o_Class o = D /\ o_SafetyStock o = 0 /\
  o_Recommended o = 0 /\ o_Difference o = Current_Stock (inv_row o) /\
  (Current_Stock (inv_row o) = Some 0 -> o_Expiry_Status o <> "🟥 EXPIRED" ->
   o_Action o = "OK") /\
  (o_Expiry_Status o = "🟥 EXPIRED" -> o_Action o = "REMOVE – Expired").

(** C6 (amended): every filtered inventory row whose key has no movement
    in the 540-day window appears in the output, and its output row has a
    6-month consumption, a movement count and a Max_Consumption of 0, no
    Start_Date and no Days_Active, class D, SafetyStock 0, Recommended 0
    and Difference equal to its Current_Stock; with Current_Stock 0 and
    not expired its action is "OK", and when expired it is
    "REMOVE – Expired". *)
Theorem C6_no_movement_key df hf cf pf today r
  (Hin : In r (apply_filters hf cf pf (inv_of df)))
  (Hnone : group (key r)
             (window (today - 540 * day) (apply_filters hf cf pf (mov_of df))) = []) :
  exists o, In o (pipeline df hf cf pf today) /\ inv_row o = r /\
            no_movement_row today o.
Proof.
  exists (model_row today (apply_filters hf cf pf (mov_of df)) r).
  split; [unfold pipeline; apply in_map; exact Hin|].
  split; [reflexivity|].
  unfold no_movement_row; cbn [inv_row].
  assert (H6 : group (key r) (window (today - 180 * day) (apply_filters hf cf pf (mov_of df))) = [])
    by (apply (group_window_empty _ _ (today - 540 * day)); [unfold day; lia | exact Hnone]).
  unfold model_row, stats_of; cbv zeta; rewrite Hnone, H6; simpl.
  assert (Hdiff : option_map (fun cs => cs - 0) (Current_Stock r) = Current_Stock r)
    by (destruct (Current_Stock r); simpl; [f_equal; lia | reflexivity]).
  rewrite Hdiff.
  repeat split; try reflexivity.
  - intros Hcs Hst; unfold Action; rewrite Hcs.
    destruct (String.eqb_spec (expiry_flag today (Expiry_Date r)) "🟥 EXPIRED");
      [contradiction | reflexivity].
  - intros Hst; unfold Action; rewrite Hst; reflexivity.
Qed.

(** P4 has an inventory row and no movement. *)
Lemma C6_witness :
  exists o, In o demo_out /\ inv_row o = inv "H1" "P4" (Some 0) (Some (demo_today - day)) /\
            no_movement_row demo_today o.
Proof.
  apply (C6_no_movement_key demo_df [] [] [] demo_today
           (inv "H1" "P4" (Some 0) (Some (demo_today - day)))).
  - vm_compute; right; right; right; left; reflexivity.
  - vm_compute; reflexivity.
Defined.

(** ** C9: grouping and joining by names only *)

(** The same row with both identifier columns blanked. *)
Definition strip_ids (r : Row) : Row :=
  mkRow (Record_Type r) "" (Hospital_Name r) "" (Product_Name r) (Product_Category r)
    (Usage_Family r) (Movement_Date r) (Movement_Qty r) (Current_Stock r)
    (Expiry_Date r) (Consignment_Start_Date r).

Definition set_inv_row (o : OutRow) (r : Row) : OutRow :=
  mkOut r (o_stats o) (o_AvgWeekly o) (o_Activity_Quotient o) (o_Class o)
    (o_SafetyStock o) (o_Recommended o) (o_Expiry_Status o) (o_Difference o) (o_Action o).

Lemma filter_strip (p : Row -> bool) l :
  (forall r, p (strip_ids r) = p r) -> filter p (map strip_ids l) = map strip_ids (filter p l).
Proof. intros Hp; rewrite filter_map_swap; f_equal; apply filter_ext; exact Hp. Qed.

Lemma filter_on_strip (col : Row -> string) sel l :
  (forall r, col (strip_ids r) = col r) ->
  filter_on col sel (map strip_ids l) = map strip_ids (filter_on col sel l).
Proof.
  intros Hc; destruct sel as [|s sel]; [reflexivity|].
  apply filter_strip; intros r; simpl; rewrite Hc; reflexivity.
Qed.

Lemma apply_filters_strip hf cf pf l :
  apply_filters hf cf pf (map strip_ids l) = map strip_ids (apply_filters hf cf pf l).
Proof.
  unfold apply_filters; rewrite !filter_on_strip; reflexivity.
Qed.

Lemma stats_of_strip today ms k :
  stats_of today (map strip_ids ms) k = stats_of today ms k.
Proof.
  unfold stats_of, group, window.
  rewrite !(filter_strip (date_ge _)) by reflexivity.
  rewrite !(filter_strip (fun r => key_eqb (key r) k)) by reflexivity.
  rewrite !map_map; reflexivity.
Qed.

(** C9: the identifier columns are never consulted: blanking Hospital_ID
    and Product_ID in the whole frame changes only those columns of the
    output; and two output rows with the same (Hospital_Name,
    Product_Name) carry the same aggregates, class and Recommended stock. *)
Theorem C9_keyed_on_names df hf cf pf today :
  pipeline (map strip_ids df) hf cf pf today =
    map (fun o => set_inv_row o (strip_ids (inv_row o))) (pipeline df hf cf pf today) /\
  (forall o1 o2, In o1 (pipeline df hf cf pf today) -> In o2 (pipeline df hf cf pf today) ->
   key (inv_row o1) = key (inv_row o2) ->
   o_stats o1 = o_stats o2 /\ o_Class o1 = o_Class o2 /\ o_Recommended o1 = o_Recommended o2).
Proof.
  split.
  - unfold pipeline, mov_of, inv_of.
    rewrite !(filter_strip (fun r => String.eqb (Record_Type r) _)) by reflexivity.
    rewrite !apply_filters_strip, !map_map.
    apply map_ext; intros r.
    unfold model_row; rewrite stats_of_strip; reflexivity.
  - intros o1 o2 H1 H2 Hk.
    destruct (in_pipeline _ _ _ _ _ _ H1) as [r1 [-> _]].
    destruct (in_pipeline _ _ _ _ _ _ H2) as [r2 [-> _]].
    simpl in Hk |- *; rewrite Hk; auto.
Qed.

(** ** C10: movements whose date did not parse *)

Definition dated (r : Row) : bool :=
  match Movement_Date r with Some _ => true | None => false end.

(** Keeps every row except the movement rows whose date is NaT. *)
Definition keep_parsed (r : Row) : bool :=
  negb (String.eqb (Record_Type r) "movement" && negb (dated r)).

Lemma filter_on_filter (col : Row -> string) sel (q : Row -> bool) l :
  filter_on col sel (filter q l) = filter q (filter_on col sel l).
Proof.
  destruct sel; [reflexivity|]; simpl.
  rewrite !filter_filter; apply filter_ext; intros r; apply andb_comm.
Qed.

Lemma window_dated s l : window s (filter dated l) = window s l.
Proof.
  unfold window; rewrite filter_filter; apply filter_ext; intros r.
  unfold dated, date_ge; destruct (Movement_Date r); reflexivity.
Qed.

(** C10: dropping every movement row whose Movement_Date is NaT leaves the
    whole output unchanged, so such a row contributes to none of the
    windowed aggregates (6-month sum, count, maximum, first date). *)
Theorem C10_unparsed_dates_ignored df hf cf pf today :
  pipeline (filter keep_parsed df) hf cf pf today = pipeline df hf cf pf today.
Proof.
  assert (Hinv : inv_of (filter keep_parsed df) = inv_of df).
  { unfold inv_of; rewrite filter_filter; apply filter_ext; intros r.
    destruct (String.eqb_spec (Record_Type r) "inventory") as [E|E].
    - unfold keep_parsed; rewrite E; reflexivity.
    - rewrite andb_false_r; reflexivity. }
  assert (Hmov : mov_of (filter keep_parsed df) = filter dated (mov_of df)).
  { unfold mov_of; rewrite !filter_filter; apply filter_ext; intros r.
    unfold keep_parsed; destruct (String.eqb (Record_Type r) "movement"), (dated r);
      reflexivity. }
  unfold pipeline; rewrite Hinv, Hmov.
  unfold apply_filters at 1; rewrite !filter_on_filter; fold (apply_filters hf cf pf (mov_of df)).
  apply map_ext; intros r.
  unfold model_row, stats_of; rewrite !window_dated; reflexivity.
Qed.

(** ** C2: the schema error *)

(** The required columns minus "Consignment_Start_Date". *)
Definition cols_missing_one : list string := removelast required_cols.

(** C2 (code defect): a frame lacking only "Consignment_Start_Date" halts
    before any computation and without reading the clock, but the error
    lists all twelve required columns, not the one missing column. *)
Theorem C2_error_lists_required_not_missing :
  filter (fun c => negb (col_in cols_missing_one c)) required_cols = ["Consignment_Start_Date"] /\
  app cols_missing_one demo_df [] [] [] = Ret (Halted required_cols) /\
  required_cols <> ["Consignment_Start_Date"].
Proof. vm_compute. split; [reflexivity | split; [reflexivity | discriminate]]. Qed.

(** ** C3: the as-of instant *)

Definition actions_of (res : Result) : list string :=
  match res with Table t => map o_Action t | Halted _ => [] end.

(** C3 (as stated fails): for a valid frame the script reads the wall
    clock, and the same input run at two clock readings 60 days apart gives
    different tables (P2 has expired by then). *)
Lemma C3_counterexample :
  clock_reads demo_today (app required_cols demo_df [] [] []) = 1%nat /\
  run_prog demo_today (app required_cols demo_df [] [] []) <>
  run_prog (demo_today + 60 * day) (app required_cols demo_df [] [] []).
Proof.
  split; [vm_compute; reflexivity|].
  intros H; apply (f_equal actions_of) in H; vm_compute in H; discriminate H.
Qed.

(** C3 (amended): the script takes no as-of parameter; a frame that fails
    validation halts without reading the clock, and otherwise the clock is
    read exactly once and the table is [pipeline] at that one instant, so
    two runs on the same input that read the same instant give the same
    table. *)
Theorem C3_single_clock_read cols df hf cf pf now :
  clock_reads now (app cols df hf cf pf) =
    (match validate cols with Some _ => 0 | None => 1 end)%nat /\
  run_prog now (app cols df hf cf pf) =
    match validate cols with
    | Some shown => Halted shown
    | None => Table (pipeline df hf cf pf now)
    end.
Proof. unfold app; destruct (validate cols); split; reflexivity. Qed.

(** * Further properties of the script *)

(** ** Classification (lines 149-164) *)

(** Position of a class in the order A, B, C, D. *)
Definition class_rank (c : Class) : nat :=
  match c with A => 0 | B => 1 | C => 2 | D => 3 end.

Lemma Qle_bool_trans_false q1 q2 t :
  (q1 <= q2)%Q -> Qle_bool q1 t = false -> Qle_bool q2 t = false.
Proof.
  intros Hle H.
  destruct (Qle_bool q2 t) eqn:E; [|reflexivity].
  apply Qle_bool_iff in E.
  assert (Qle_bool q1 t = true) by (apply Qle_bool_iff; eapply Qle_trans; eauto).
  congruence.
Qed.

(** [classify] is monotone: a smaller activity quotient (more frequent
    movements) never gives a lower class. *)
Theorem classify_monotone (q1 q2 : Q) (Hle : (q1 <= q2)%Q) :
  (class_rank (classify (Some q1)) <= class_rank (classify (Some q2)))%nat.
Proof.
  simpl.
  destruct (Qle_bool q1 (inject_Z 10)) eqn:E10; [destruct (classify (Some q2)); simpl; lia|].
  rewrite (Qle_bool_trans_false _ _ _ Hle E10).
  destruct (Qle_bool q1 (inject_Z 20)) eqn:E20;
    [destruct (Qle_bool q2 (inject_Z 20)), (Qle_bool q2 (inject_Z 40)); simpl; lia|].
  rewrite (Qle_bool_trans_false _ _ _ Hle E20).
  destruct (Qle_bool q1 (inject_Z 40)) eqn:E40;
    [destruct (Qle_bool q2 (inject_Z 40)); simpl; lia|].
  rewrite (Qle_bool_trans_false _ _ _ Hle E40); simpl; lia.
Qed.

Lemma classify_monotone_witness :
  (inject_Z 15 <= inject_Z 30)%Q /\
  (class_rank (classify (Some (inject_Z 15))) <= class_rank (classify (Some (inject_Z 30))))%nat.
Proof.
  split; [vm_compute; discriminate | apply classify_monotone; vm_compute; discriminate].
Defined.

(** Every output row of class A, B or C has at least one counted movement
    in the 540-day window: the 999 sentinel and a missing quotient both give
    class D. *)
Theorem class_above_D_has_movements df hf cf pf today :
  Forall (fun o => o_Class o <> D -> 0 < Number_of_Consumptions (o_stats o))
    (pipeline df hf cf pf today).
Proof.
  apply Forall_forall; intros o Hin.
  destruct (in_pipeline _ _ _ _ _ _ Hin) as [r [-> _]].
  unfold model_row; cbn zeta; cbn [o_Class o_stats].
  set (s := stats_of today (apply_filters hf cf pf (mov_of df)) (key r)).
  unfold Activity_Quotient.
  destruct (Z.ltb_spec 0 (Number_of_Consumptions s)) as [H|H]; [auto|].
  intros Hc; exfalso; apply Hc; reflexivity.
Qed.

(** The SafetyStock of every output row is between 0 and 3, and its
    Recommended stock lies between Max_Consumption and Max_Consumption + 3. *)
Theorem recommended_bounds df hf cf pf today :
  Forall (fun o => 0 <= o_SafetyStock o <= 3 /\
                   Max_Consumption (o_stats o) <= o_Recommended o <= Max_Consumption (o_stats o) + 3)
    (pipeline df hf cf pf today).
Proof.
  apply Forall_forall; intros o Hin.
  destruct (in_pipeline _ _ _ _ _ _ Hin) as [r [-> _]].
  unfold model_row, Recommended; cbn zeta; cbn [o_SafetyStock o_Recommended o_stats].
  match goal with |- context [safety_map ?c] => destruct c end; simpl; lia.
Qed.

(** ** Expiry flags (lines 174-183) *)

(** Urgency of an expiry label: OK, then Expiring Soon, then EXPIRED. *)
Definition status_rank (s : string) : nat :=
  if String.eqb s "🟥 EXPIRED" then 2
  else if String.eqb s "🟧 Expiring Soon" then 1
  else 0.

(** For a fixed expiry date, a later as-of instant never gives a less
    urgent expiry label. *)
Theorem expiry_flag_monotone_in_time (t1 t2 : Z) (date : option Z) (Hle : t1 <= t2) :
  (status_rank (expiry_flag t1 date) <= status_rank (expiry_flag t2 date))%nat.
Proof.
  destruct date as [d|]; [|simpl; lia].
  unfold expiry_flag.
  destruct (Z.ltb_spec d t1), (Z.ltb_spec d t2);
  destruct (Z.leb_spec d (t1 + 30 * day)), (Z.leb_spec d (t2 + 30 * day));
  vm_compute; lia.
Qed.

Lemma expiry_flag_monotone_in_time_witness :
  0 <= 20 * day /\
  Nat.le (status_rank (expiry_flag 0 (Some (40 * day))))
         (status_rank (expiry_flag (20 * day) (Some (40 * day)))).
Proof.
  split; [unfold day; lia | apply expiry_flag_monotone_in_time; unfold day; lia].
Defined.

(** The expiry label is "🟥 EXPIRED" exactly when the date is known and
    earlier than the as-of instant, and "🟧 Expiring Soon" exactly when it
    lies within the next 30 days, both ends included. *)
Theorem expiry_flag_cases (today : Z) (date : option Z) :
  (expiry_flag today date = "🟥 EXPIRED" <-> exists d, date = Some d /\ d < today) /\
  (expiry_flag today date = "🟧 Expiring Soon" <->
     exists d, date = Some d /\ today <= d <= today + 30 * day).
Proof.
  destruct date as [d|]; unfold expiry_flag.
  - destruct (Z.ltb_spec d today); [|destruct (Z.leb_spec d (today + 30 * day))];
      split; split; intros Hx;
      first [ discriminate Hx
            | exists d; split; [reflexivity | lia]
            | destruct Hx as [d' [Hd ?]]; injection Hd as <-; first [reflexivity | lia] ].
  - split; split; try discriminate; intros [d' [H _]]; discriminate.
Qed.

(** ** Actions (lines 235-241) *)

(** The action is one of four labels: "REMOVE – Expired" exactly for
    expired rows, "Reduce" exactly for the other rows with a positive
    Difference, "Increase" exactly for the other rows with a negative one,
    and "OK" otherwise (also when the Difference is NaN). *)
Theorem action_cases (status : string) (diff : option Z) :
  (Action status diff = "REMOVE – Expired" <-> status = "🟥 EXPIRED") /\
  (Action status diff = "Reduce" <->
     status <> "🟥 EXPIRED" /\ exists d, diff = Some d /\ 0 < d) /\
  (Action status diff = "Increase" <->
     status <> "🟥 EXPIRED" /\ exists d, diff = Some d /\ d < 0) /\
  In (Action status diff) ["Reduce"; "Increase"; "OK"; "REMOVE – Expired"].
Proof.
  unfold Action.
  destruct (String.eqb_spec status "🟥 EXPIRED") as [Hs|Hs].
  - repeat split; try discriminate; try (intros [Hn _]; contradiction); auto.
    simpl; auto.
  - assert (Hne : forall d, diff = Some d -> action_of_difference diff = action_of_difference (Some d))
      by (intros d ->; reflexivity).
    destruct diff as [d|]; unfold action_of_difference;
      [destruct (Z.ltb_spec 0 d); [|destruct (Z.ltb_spec d 0)]|];
      repeat split; intros;
      repeat match goal with
             | H : _ /\ _ |- _ => destruct H
             | H : exists _, _ |- _ => destruct H
             | H : Some _ = Some _ |- _ => injection H as <-
             | H : None = Some _ |- _ => discriminate H
             end;
      try discriminate; try contradiction; try lia; try reflexivity;
      try (exists d; split; [reflexivity | lia]); simpl; auto.
Qed.

(** ** Start date and days active (lines 111-120) *)

Lemma in_window s l r : In r (window s l) -> exists d, Movement_Date r = Some d /\ s <= d.
Proof.
  unfold window, date_ge; intros H; apply filter_In in H; destruct H as [_ H].
  destruct (Movement_Date r) as [d|]; [|discriminate].
  exists d; split; [reflexivity | apply Z.leb_le; exact H].
Qed.

Lemma nanmin_spec xs m :
  nanmin xs = Some m -> In (Some m) xs /\ forall x, In (Some x) xs -> m <= x.
Proof.
  unfold nanmin; revert m; induction xs as [|a xs IH]; simpl; intros m H; [discriminate|].
  destruct a as [v|]; destruct (nanopt Z.min xs) as [m'|] eqn:E.
  - injection H as <-; destruct (IH m' eq_refl) as [Hin Hall].
    destruct (Z.min_spec v m') as [[_ Hm]|[_ Hm]]; rewrite Hm.
    + split; [auto|]; intros x [Hx|Hx]; [injection Hx as ->; lia|].
      specialize (Hall x Hx); lia.
    + split; [auto|]; intros x [Hx|Hx]; [injection Hx as ->; lia|auto].
  - injection H as <-; split; [auto|]; intros x [Hx|Hx]; [injection Hx as ->; lia|].
    exfalso; clear IH; induction xs as [|b xs IHx]; [contradiction|].
    simpl in E, Hx; destruct b as [w|]; [destruct (nanopt Z.min xs); discriminate|].
    destruct Hx as [Hx|Hx]; [discriminate | exact (IHx E Hx)].
  - destruct (IH m H) as [Hin Hall]; split; [auto|]; intros x [Hx|Hx];
      [discriminate | auto].
  - discriminate.
Qed.

Lemma nanmin_none xs : nanmin xs = None -> forall x, ~ In (Some x) xs.
Proof.
  unfold nanmin; induction xs as [|a xs IH]; simpl; [auto|].
  intros H x [Hx|Hx]; [subst a; destruct (nanopt Z.min xs); discriminate|].
  destruct a as [v|]; [destruct (nanopt Z.min xs); discriminate|].
  exact (IH H x Hx).
Qed.

(** [Start_Date] is the earliest date among the key's movements in the
    540-day window: it is one of those dates, no earlier than 540 days
    before the as-of instant, and [Days_Active] is then at most 540; it
    is missing (and so is [Days_Active]) exactly when the key has no
    movement in the window. *)
Theorem start_date_spec today ms k :
  let g18 := group k (window (today - 540 * day) ms) in
  match Start_Date (stats_of today ms k) with
  | Some s =>
      today - 540 * day <= s /\
      (exists r, In r g18 /\ Movement_Date r = Some s) /\
      (forall r d, In r g18 -> Movement_Date r = Some d -> s <= d) /\
      Days_Active (stats_of today ms k) = Some ((today - s) / day) /\
      (today - s) / day <= 540
  | None => g18 = [] /\ Days_Active (stats_of today ms k) = None
  end.
Proof.
  cbv zeta; unfold stats_of; cbv zeta; cbn [Start_Date Days_Active].
  set (g18 := group k (window (today - 540 * day) ms)).
  destruct (nanmin (map Movement_Date g18)) as [s|] eqn:E.
  - destruct (nanmin_spec _ _ E) as [Hin Hall].
    apply in_map_iff in Hin; destruct Hin as [r [Hr Hrin]].
    assert (Hs : today - 540 * day <= s).
    { unfold g18, group in Hrin; apply filter_In in Hrin; destruct Hrin as [Hw _].
      destruct (in_window _ _ _ Hw) as [d [Hd Hle]]; congruence. }
    split; [exact Hs|]. split; [exists r; auto|]. split.
    + intros r' d Hr' Hd; apply Hall; rewrite <- Hd; apply in_map; exact Hr'.
    + split; [reflexivity|].
      apply Z.div_le_upper_bound; unfold day in *; lia.
  - split; [|reflexivity].
    destruct g18 as [|r rest] eqn:Eg; [reflexivity|exfalso].
    assert (Hw : In r (window (today - 540 * day) ms)).
    { assert (Hr : In r g18) by (rewrite Eg; left; reflexivity).
      unfold g18, group in Hr; apply filter_In in Hr; tauto. }
    destruct (in_window _ _ _ Hw) as [d [Hd _]].
    apply (nanmin_none _ E d); rewrite <- Hd; left; reflexivity.
Qed.

(** ** Rows the pipeline never reads *)

Definition is_mov (r : Row) : bool := String.eqb (Record_Type r) "movement".
Definition is_inv (r : Row) : bool := String.eqb (Record_Type r) "inventory".

(** Rows whose Record_Type is neither "movement" nor "inventory" are
    ignored: removing them leaves the output unchanged. *)
Theorem other_record_types_ignored df hf cf pf today :
  pipeline (filter (fun r => is_mov r || is_inv r) df) hf cf pf today =
  pipeline df hf cf pf today.
Proof.
  assert (Hf : forall q, (forall r, q r = true -> is_mov r || is_inv r = true) ->
            filter q (filter (fun r => is_mov r || is_inv r) df) = filter q df).
  { intros q Hq; rewrite filter_filter; apply filter_ext; intros r.
    destruct (q r) eqn:E; [rewrite (Hq r E) | apply andb_false_r]; reflexivity. }
  unfold pipeline, mov_of, inv_of; rewrite !Hf; [reflexivity| |];
    intros r E; unfold is_mov, is_inv; rewrite E; [apply orb_true_r | reflexivity].
Qed.

Lemma window_window s s1 l : s <= s1 -> window s1 (window s l) = window s1 l.
Proof.
  intros Hs; unfold window; rewrite filter_filter; apply filter_ext; intros r.
  destruct (date_ge s1 r) eqn:E; [rewrite (date_ge_mono s1 s r Hs E); reflexivity|].
  apply andb_false_r.
Qed.

(** Keeps every row except the movement rows dated before the 540-day
    window (or not dated). *)
Definition keep_recent (today : Z) (r : Row) : bool :=
  negb (is_mov r && negb (date_ge (today - 540 * day) r)).

(** Movement rows older than 540 days before the as-of instant do not
    influence the output: dropping them changes nothing. *)
Theorem old_movements_ignored df hf cf pf today :
  pipeline (filter (keep_recent today) df) hf cf pf today = pipeline df hf cf pf today.
Proof.
  assert (Hinv : inv_of (filter (keep_recent today) df) = inv_of df).
  { unfold inv_of; rewrite filter_filter; apply filter_ext; intros r.
    unfold keep_recent, is_mov.
    destruct (String.eqb_spec (Record_Type r) "inventory") as [E|E].
    - rewrite E; reflexivity.
    - apply andb_false_r. }
  assert (Hmov : mov_of (filter (keep_recent today) df) =
                 window (today - 540 * day) (mov_of df)).
  { unfold mov_of, window; rewrite !filter_filter; apply filter_ext; intros r.
    unfold keep_recent, is_mov; destruct (String.eqb (Record_Type r) "movement"),
      (date_ge (today - 540 * day) r); reflexivity. }
  unfold pipeline; rewrite Hinv, Hmov; unfold window at 1.
  unfold apply_filters at 1; rewrite !filter_on_filter;
    fold (apply_filters hf cf pf (mov_of df)).
  apply map_ext; intros r.
  fold (window (today - 540 * day) (apply_filters hf cf pf (mov_of df))).
  unfold model_row, stats_of.
  rewrite !window_window by (unfold day; lia); reflexivity.
Qed.

(** ** Filters (lines 71-89) *)

Lemma isin_In x sel : isin x sel = true <-> In x sel.
Proof.
  unfold isin; rewrite existsb_exists; split.
  - intros [y [Hy E]]; apply String.eqb_eq in E; subst; exact Hy.
  - intros H; exists x; split; [exact H | apply String.eqb_refl].
Qed.

Lemma filter_on_In col sel l r :
  In r (filter_on col sel l) <-> In r l /\ (sel = [] \/ In (col r) sel).
Proof.
  destruct sel as [|s sel']; [simpl; intuition discriminate|].
  unfold filter_on; rewrite filter_In, isin_In; intuition discriminate.
Qed.

(** A row survives the filters exactly when, for each non-empty
    selection (hospital, category, product), its column value is
    selected; an empty selection keeps every row. *)
Theorem apply_filters_In hf cf pf l r :
  In r (apply_filters hf cf pf l) <->
  In r l /\ (hf = [] \/ In (Hospital_Name r) hf) /\
  (cf = [] \/ In (Product_Category r) cf) /\ (pf = [] \/ In (Product_Name r) pf).
Proof.
  unfold apply_filters; rewrite !filter_on_In; tauto.
Qed.

(** The selections act the same way on movements and on inventory rows:
    running with filters is running without filters on the pre-filtered
    frame. *)
Theorem pipeline_prefilter df hf cf pf today :
  pipeline df hf cf pf today = pipeline (apply_filters hf cf pf df) [] [] [] today.
Proof.
  unfold pipeline, mov_of, inv_of, apply_filters; rewrite !filter_on_filter.
  reflexivity.
Qed.

(** ** Validation (lines 45-53) *)

(** Validation passes exactly when every required column is present,
    whatever the order of the columns or any extra ones; otherwise it
    halts with the list of all required columns. *)
Theorem validate_spec cols :
  (validate cols = None <-> incl required_cols cols) /\
  (validate cols = None \/ validate cols = Some required_cols).
Proof.
  unfold validate.
  assert (Hiff : forallb (col_in cols) required_cols = true <-> incl required_cols cols).
  { rewrite forallb_forall; unfold incl, col_in; split; intros H c Hc;
      specialize (H c Hc).
    - apply existsb_exists in H; destruct H as [y [Hy E]];
        apply String.eqb_eq in E; subst; exact Hy.
    - apply existsb_exists; exists c; split; [exact H | apply String.eqb_refl]. }
  destruct (forallb (col_in cols) required_cols); simpl.
  - split; [split; [intros _; apply Hiff; reflexivity | reflexivity] | left; reflexivity].
  - split; [split; [discriminate | intros H; apply Hiff in H; discriminate] | right; reflexivity].
Qed.

(** ** Key metrics (lines 194-199) *)

Definition sumZ (xs : list Z) : Z := fold_right Z.add 0 xs.

Definition diff_gt0 (o : OutRow) : bool :=
  match o_Difference o with Some d => Z.ltb 0 d | None => false end.
Definition diff_lt0 (o : OutRow) : bool :=
  match o_Difference o with Some d => Z.ltb d 0 | None => false end.

(** The five [st.metric] values; [int(...)] of an integer sum is the sum. *)
Record KPIs := mkKPIs {
  k_consumption : Z;   (* "Total Consumption (6M)" *)
  k_inventory : Z;     (* "Current Inventory" *)
  k_recommended : Z;   (* "Total Recommended" *)
  k_reduction : Z;     (* "Reduction Needed" *)
  k_increase : Z       (* "Increase Needed" *)
}.

Definition kpis (model_df : list OutRow) : KPIs :=
  {| k_consumption := sumZ (map (fun o => Consumption_6M (o_stats o)) model_df);
     k_inventory := nansum (map (fun o => Current_Stock (inv_row o)) model_df);
     k_recommended := sumZ (map o_Recommended model_df);
     k_reduction := nansum (map o_Difference (filter diff_gt0 model_df));
     k_increase := - nansum (map o_Difference (filter diff_lt0 model_df)) |}.

Lemma nansum_sign_split (l : list OutRow) :
  nansum (map o_Difference l) =
  nansum (map o_Difference (filter diff_gt0 l)) + nansum (map o_Difference (filter diff_lt0 l)).
Proof.
  induction l as [|o l IH]; simpl; [reflexivity|].
  destruct (diff_gt0 o) eqn:G, (diff_lt0 o) eqn:L; simpl;
    unfold diff_gt0, diff_lt0 in G, L; destruct (o_Difference o) as [d|]; simpl;
    try discriminate; rewrite ?Z.ltb_lt, ?Z.ltb_ge in *; lia.
Qed.

Lemma nansum_filter_nonneg (l : list OutRow) :
  0 <= nansum (map o_Difference (filter diff_gt0 l)) /\
  nansum (map o_Difference (filter diff_lt0 l)) <= 0.
Proof.
  induction l as [|o l IH]; simpl; [lia|].
  destruct (diff_gt0 o) eqn:G, (diff_lt0 o) eqn:L; simpl;
    unfold diff_gt0, diff_lt0 in G, L; destruct (o_Difference o) as [d|]; simpl;
    try discriminate; rewrite ?Z.ltb_lt, ?Z.ltb_ge in *; lia.
Qed.

(** "Reduction Needed" and "Increase Needed" are non-negative, and when
    every filtered inventory row has a Current_Stock, "Current Inventory"
    minus "Total Recommended" equals "Reduction Needed" minus "Increase
    Needed". *)
Theorem kpi_balance df hf cf pf today
  (Hstock : Forall (fun r => Current_Stock r <> None) (apply_filters hf cf pf (inv_of df))) :
  let k := kpis (pipeline df hf cf pf today) in
  0 <= k_reduction k /\ 0 <= k_increase k /\
  k_inventory k - k_recommended k = k_reduction k - k_increase k.
Proof.
  cbv zeta; unfold kpis; cbn [k_reduction k_increase k_inventory k_recommended].
  destruct (nansum_filter_nonneg (pipeline df hf cf pf today)).
  split; [lia | split; [lia|]].
  rewrite Z.sub_opp_r, <- nansum_sign_split.
  unfold pipeline; induction Hstock as [|r rs Hr _ IH]; simpl; [reflexivity|].
  destruct (Current_Stock r) as [cs|]; [simpl in *; lia | contradiction].
Qed.

Lemma kpi_balance_witness :
  Forall (fun r => Current_Stock r <> None) (apply_filters [] [] [] (inv_of demo_df)) /\
  let k := kpis (pipeline demo_df [] [] [] demo_today) in
  0 <= k_reduction k /\ 0 <= k_increase k /\
  k_inventory k - k_recommended k = k_reduction k - k_increase k.
Proof.
  assert (H : Forall (fun r => Current_Stock r <> None) (apply_filters [] [] [] (inv_of demo_df)))
    by (vm_compute; repeat constructor; discriminate).
  split; [exact H | exact (kpi_balance demo_df [] [] [] demo_today H)].
Defined.

(** ** Category x Hospital matrix (lines 214-220) *)

(** The distinct labels of a column.  [pivot_table] sorts them; the order
    is not modelled, only the set, which is all the sums below use. *)
Fixpoint unique (xs : list string) : list string :=
  match xs with
  | [] => []
  | x :: rest => if isin x rest then unique rest else x :: unique rest
  end.

Definition o_cat (o : OutRow) : string := Product_Category (inv_row o).
Definition o_hosp (o : OutRow) : string := Hospital_Name (inv_row o).

(** A cell: the sum of the Differences of its rows (NaN skipped), and the
    [fill_value] 0 for a combination without rows. *)
Definition pivot_cell (model_df : list OutRow) (c h : string) : Z :=
  nansum (map o_Difference
    (filter (fun o => String.eqb (o_cat o) c && String.eqb (o_hosp o) h) model_df)).

Definition pivot_total (model_df : list OutRow) : Z :=
  sumZ (map (fun c => sumZ (map (fun h => pivot_cell model_df c h)
                               (unique (map o_hosp model_df))))
            (unique (map o_cat model_df))).

Lemma unique_In x xs : In x (unique xs) <-> In x xs.
Proof.
  induction xs as [|y xs IH]; simpl; [tauto|].
  destruct (isin y xs) eqn:E; simpl; rewrite IH; [|tauto].
  apply isin_In in E; split; [auto|intros [<-|H]; auto].
Qed.

Lemma unique_NoDup xs : NoDup (unique xs).
Proof.
  induction xs as [|y xs IH]; simpl; [constructor|].
  destruct (isin y xs) eqn:E; [exact IH|].
  constructor; [|exact IH].
  rewrite unique_In; intros H; apply isin_In in H; congruence.
Qed.

Lemma nansum_cons x xs : nansum (x :: xs) = fillna0 x + nansum xs.
Proof. destruct x; reflexivity. Qed.

Lemma sumZ_map_add {X} (f g : X -> Z) l :
  sumZ (map (fun k => f k + g k) l) = sumZ (map f l) + sumZ (map g l).
Proof. induction l; simpl; lia. Qed.

Lemma sumZ_indicator (ks : list string) x v :
  NoDup ks -> In x ks -> sumZ (map (fun k => if String.eqb x k then v else 0) ks) = v.
Proof.
  induction ks as [|k ks IH]; simpl; intros Hnd Hin; [contradiction|].
  inversion Hnd as [|? ? Hk Hnd']; subst.
  destruct (String.eqb_spec x k) as [->|Hne].
  - assert (Hz : sumZ (map (fun k' => if String.eqb k k' then v else 0) ks) = 0).
    { clear IH Hin Hnd Hnd'; induction ks as [|k' ks IHk]; simpl; [reflexivity|].
      destruct (String.eqb_spec k k'); [subst; simpl in Hk; tauto|].
      simpl in Hk; rewrite IHk; [reflexivity|tauto]. }
    lia.
  - destruct Hin as [->|Hin]; [congruence|]. rewrite IH; auto.
Qed.

Lemma sumZ_partition (f : OutRow -> string) (g : OutRow -> option Z) ks l :
  NoDup ks -> (forall o, In o l -> In (f o) ks) ->
  sumZ (map (fun k => nansum (map g (filter (fun o => String.eqb (f o) k) l))) ks) =
  nansum (map g l).
Proof.
  intros Hnd; induction l as [|o l IH]; intros Hin.
  - simpl; clear Hnd Hin; induction ks; simpl; lia.
  - cbn [map]; rewrite nansum_cons.
    rewrite (map_ext _ (fun k => (if String.eqb (f o) k then fillna0 (g o) else 0) +
                                 nansum (map g (filter (fun o => String.eqb (f o) k) l)))).
    + rewrite sumZ_map_add, sumZ_indicator, IH;
        [reflexivity | intros o' H; apply Hin; right; exact H | exact Hnd
        | apply Hin; left; reflexivity].
    + intros k; cbn [filter]; destruct (String.eqb (f o) k); cbn [map];
        rewrite ?nansum_cons; lia.
Qed.

(** The Category x Hospital matrix adds up to the net Difference: the sum
    of all its cells is "Reduction Needed" minus "Increase Needed". *)
Theorem pivot_total_kpi df hf cf pf today :
  let model_df := pipeline df hf cf pf today in
  pivot_total model_df = k_reduction (kpis model_df) - k_increase (kpis model_df).
Proof.
  cbv zeta; set (l := pipeline df hf cf pf today).
  unfold kpis; cbn [k_reduction k_increase]; rewrite Z.sub_opp_r, <- nansum_sign_split.
  unfold pivot_total, pivot_cell.
  rewrite <- (sumZ_partition o_cat o_Difference (unique (map o_cat l)) l);
    [| apply unique_NoDup | intros o Ho; apply unique_In, in_map; exact Ho].
  f_equal; apply map_ext_in; intros c _.
  rewrite <- (sumZ_partition o_hosp o_Difference (unique (map o_hosp l))
               (filter (fun o => String.eqb (o_cat o) c) l));
    [| apply unique_NoDup
     | intros o Ho; apply unique_In, in_map; apply filter_In in Ho; tauto].
  f_equal; apply map_ext; intros h; rewrite filter_filter; reflexivity.
Qed.

(** ** Order of the rows *)


Lemma Permutation_filter_bool {X} (p : X -> bool) l l' :
  Permutation l l' -> Permutation (filter p l) (filter p l').
Proof.
  induction 1 as [|x l l' _ IH|x y l|l l' l'' _ IH1 _ IH2]; simpl.
  - constructor.
  - destruct (p x); [constructor|]; exact IH.
  - destruct (p x), (p y); try constructor; apply Permutation_refl.
  - eapply Permutation_trans; eauto.
Qed.

Lemma nansum_perm xs ys : Permutation xs ys -> nansum xs = nansum ys.
Proof.
  induction 1; rewrite ?nansum_cons in *; lia.
Qed.

Lemma nanopt_perm (f : Z -> Z -> Z)
  (Hc : forall a b, f a b = f b a) (Ha : forall a b c, f a (f b c) = f (f a b) c)
  xs ys : Permutation xs ys -> nanopt f xs = nanopt f ys.
Proof.
  induction 1 as [|x l l' _ IH|x y l|l l' l'' _ IH1 _ IH2]; simpl.
  - reflexivity.
  - rewrite IH; reflexivity.
  - destruct x as [a|], y as [b|], (nanopt f l) as [c|]; try reflexivity;
      f_equal; rewrite ?Ha, (Hc a b); reflexivity.
  - congruence.
Qed.

Lemma stats_of_perm today ms ms' k :
  Permutation ms ms' -> stats_of today ms k = stats_of today ms' k.
Proof.
  intros Hp.
  assert (H6 : Permutation (group k (window (today - 180 * day) ms))
                           (group k (window (today - 180 * day) ms')))
    by (apply Permutation_filter_bool, Permutation_filter_bool, Hp).
  assert (H18 : Permutation (group k (window (today - 540 * day) ms))
                            (group k (window (today - 540 * day) ms')))
    by (apply Permutation_filter_bool, Permutation_filter_bool, Hp).
  unfold stats_of; cbv zeta.
  unfold nanmin, nanmax, nancount.
  rewrite (nansum_perm _ _ (Permutation_map Movement_Qty H6)).
  rewrite (nanopt_perm Z.min Z.min_comm Z.min_assoc _ _ (Permutation_map Movement_Date H18)).
  rewrite (nanopt_perm Z.max Z.max_comm Z.max_assoc _ _ (Permutation_map Movement_Qty H18)).
  rewrite (Permutation_length (Permutation_filter_bool _ _ _ (Permutation_map Movement_Qty H18))).
  reflexivity.
Qed.

Lemma apply_filters_perm hf cf pf l l' :
  Permutation l l' -> Permutation (apply_filters hf cf pf l) (apply_filters hf cf pf l').
Proof.
  intros Hp; unfold apply_filters.
  assert (Hon : forall col sel m m', Permutation m m' ->
                Permutation (filter_on col sel m) (filter_on col sel m')).
  { intros col sel m m' Hm; destruct sel; [exact Hm | apply Permutation_filter_bool, Hm]. }
  apply Hon, Hon, Hon, Hp.
Qed.

(** Reordering the rows of the frame only reorders the output rows; in
    particular the aggregates of a key do not depend on the order of its
    movements. *)
Theorem pipeline_perm df df' hf cf pf today (Hp : Permutation df df') :
  Permutation (pipeline df hf cf pf today) (pipeline df' hf cf pf today).
Proof.
  unfold pipeline.
  assert (Hm : Permutation (apply_filters hf cf pf (mov_of df)) (apply_filters hf cf pf (mov_of df')))
    by (apply apply_filters_perm, Permutation_filter_bool, Hp).
  rewrite (map_ext (model_row today (apply_filters hf cf pf (mov_of df)))
                   (model_row today (apply_filters hf cf pf (mov_of df')))).
  - apply Permutation_map, apply_filters_perm, Permutation_filter_bool, Hp.
  - intros r; unfold model_row; rewrite (stats_of_perm _ _ _ _ Hm); reflexivity.
Qed.

Lemma pipeline_perm_witness :
  Permutation demo_df (rev demo_df) /\
  Permutation (pipeline demo_df [] [] [] demo_today) (pipeline (rev demo_df) [] [] [] demo_today).
Proof.
  assert (H : Permutation demo_df (rev demo_df)) by apply Permutation_rev.
  split; [exact H | apply (pipeline_perm demo_df (rev demo_df) [] [] [] demo_today H)].
Defined.
